(** * TransformerModel (src/test-fixtures/sample-repo/src/ml_model.py)

    A shallow embedding of the Python class [TransformerModel].  Python
    objects live in a heap of instances; each instance carries its class
    name and its instance dictionary ([__dict__]).  Python statements are
    run in a small state-and-exception monad over that heap, so that a
    raised exception, an allocation and an attribute store are all
    visible in the model.

    The module-level [import torch] and [import numpy as np] run before the
    class exists; the model starts after the module has been imported. *)

From stdpp Require Import base gmap strings.
From Stdlib Require Import ZArith.

(** ** Python values *)

Inductive pyval : Type :=
  | VNone
  | VBool (b : bool)
  | VInt (z : Z)
  | VStr (s : string)
  | VRef (l : positive).

Record pyobj : Type := mkobj {
  obj_class : string;
  obj_dict : gmap string pyval
}.

Abbreviation heap := (gmap positive pyobj).

(** ** The interpreter monad: heap threading and raised exceptions *)

Inductive pyresult (A : Type) : Type :=
  | Ok (a : A) (h : heap)
  | Raise (exn : string) (h : heap).
Arguments Ok {A} a h.
Arguments Raise {A} exn h.

Definition PyM (A : Type) : Type := heap -> pyresult A.

Definition py_ret {A} (a : A) : PyM A := fun h => Ok a h.

Definition py_bind {A B} (m : PyM A) (k : A -> PyM B) : PyM B :=
  fun h => match m h with
           | Ok a h' => k a h'
           | Raise e h' => Raise e h'
           end.

Definition py_raise {A} (exn : string) : PyM A := fun h => Raise exn h.

Notation "x <<- m ;; k" := (py_bind m (fun x => k))
  (at level 100, m at next level, right associativity).

(** The observable outcome of a run: the returned value or the exception. *)
Definition outcome {A} (r : pyresult A) : A + string :=
  match r with
  | Ok a _ => inl a
  | Raise e _ => inr e
  end.

Definition final_heap {A} (r : pyresult A) : heap :=
  match r with
  | Ok _ h => h
  | Raise _ h => h
  end.

(** ** Object primitives *)

(** [object.__new__(cls)]: a fresh instance with an empty [__dict__]. *)
Definition alloc (cls : string) : PyM positive :=
  fun h => let l := fresh (dom h) in
           Ok l (<[l := mkobj cls ∅]> h).

(** [self.k = v] on an ordinary instance (no [__slots__], no
    [__setattr__] override): the pair is written into [__dict__].
    Assigning an attribute on a non-instance value raises. *)
Definition setattr (self : pyval) (k : string) (v : pyval) : PyM unit :=
  fun h =>
    match self with
    | VRef l =>
        match h !! l with
        | Some o => Ok tt (<[l := mkobj (obj_class o) (<[k := v]> (obj_dict o))]> h)
        | None => Raise "SystemError" h
        end
    | _ => Raise "AttributeError" h
    end.

(** [self.k] for an attribute held in the instance dictionary. *)
Definition getattr (self : pyval) (k : string) : PyM pyval :=
  fun h =>
    match self with
    | VRef l =>
        match h !! l with
        | Some o =>
            match obj_dict o !! k with
            | Some v => Ok v h
            | None => Raise "AttributeError" h
            end
        | None => Raise "SystemError" h
        end
    | _ => Raise "AttributeError" h
    end.

(** ** class TransformerModel *)

Definition TransformerModel_class : string := "TransformerModel".

(** [def __init__(self, vocab_size, d_model=512)] (lines 18-22). *)
Definition TransformerModel___init__ (self vocab_size d_model : pyval) : PyM pyval :=
  _ <<- setattr self "d_model" d_model ;;
  _ <<- setattr self "vocab_size" vocab_size ;;
  py_ret VNone.

(** [def forward(self, x): pass] (lines 24-27). *)
Definition TransformerModel_forward (self x : pyval) : PyM pyval :=
  py_ret VNone.

(** [TransformerModel(vocab_size)] or [TransformerModel(vocab_size, d_model)]:
    the keyword default [512] is used when [d_model] is omitted ([None]
    here means "argument not passed", not Python's [None]). *)
Definition TransformerModel (vocab_size : pyval) (d_model : option pyval) : PyM pyval :=
  let d := default (VInt 512) d_model in
  l <<- alloc TransformerModel_class ;;
  _ <<- TransformerModel___init__ (VRef l) vocab_size d ;;
  py_ret (VRef l).

(** [model.forward(x)]: the method is found on the class of the instance;
    the constructor stores only [d_model] and [vocab_size] in [__dict__],
    so no instance attribute shadows it.  Other receivers have no
    [forward] attribute. *)
Definition call_forward (model x : pyval) : PyM pyval :=
  fun h =>
    match model with
    | VRef l =>
        match h !! l with
        | Some o =>
            if String.eqb (obj_class o) TransformerModel_class
            then TransformerModel_forward model x h
            else Raise "AttributeError" h
        | None => Raise "SystemError" h
        end
    | _ => Raise "AttributeError" h
    end.

(** [for x in xs: model.forward(x)]. *)
Fixpoint forward_all (model : pyval) (xs : list pyval) : PyM unit :=
  match xs with
  | [] => py_ret tt
  | x :: xs' =>
      _ <<- call_forward model x ;;
      forward_all model xs'
  end.

(** The instance dictionary a constructor call with these arguments leaves. *)
Definition init_dict (vocab_size d_model : pyval) : gmap string pyval :=
  <["vocab_size" := vocab_size]> (<["d_model" := d_model]> ∅).

(** ** Sanity checks on concrete inputs *)

Example construct_default_example :
  outcome (py_bind (TransformerModel (VInt 30000) None)
             (fun m => getattr m "d_model") ∅) = inl (VInt 512).
Proof. reflexivity. Qed.

Example forward_example :
  outcome (py_bind (TransformerModel (VInt 10) (Some (VInt 64)))
             (fun m => call_forward m (VStr "tokens")) ∅) = inl VNone.
Proof. reflexivity. Qed.

(** ** Running the constructor *)

(** A constructor call allocates one fresh instance and leaves exactly the
    two stored attributes in its dictionary; nothing else in the heap moves. *)
Lemma TransformerModel_run (vocab_size : pyval) (d_model : option pyval) (h : heap) :
  TransformerModel vocab_size d_model h =
  Ok (VRef (fresh (dom h)))
     (<[fresh (dom h) := mkobj TransformerModel_class
                           (init_dict vocab_size (default (VInt 512) d_model))]> h).
Proof.
  unfold TransformerModel, TransformerModel___init__, py_bind, py_ret, alloc,
    setattr, init_dict; simpl.
  rewrite lookup_insert_eq; simpl.
  rewrite lookup_insert_eq; simpl.
  rewrite !insert_insert_eq. reflexivity.
Qed.

Lemma TransformerModel_fresh (h : heap) : h !! fresh (dom h) = None.
Proof. apply not_elem_of_dom. apply is_fresh. Qed.

Lemma init_dict_d_model (vocab_size d_model : pyval) :
  init_dict vocab_size d_model !! "d_model" = Some d_model.
Proof. reflexivity. Qed.

Lemma init_dict_vocab_size (vocab_size d_model : pyval) :
  init_dict vocab_size d_model !! "vocab_size" = Some vocab_size.
Proof. reflexivity. Qed.

(** A call of [forward] on a [TransformerModel] instance returns [None] and
    does not touch the heap. *)
Lemma call_forward_instance (h : heap) (l : positive) (o : pyobj) (x : pyval) :
  h !! l = Some o -> obj_class o = TransformerModel_class ->
  call_forward (VRef l) x h = Ok VNone h.
Proof.
  intros Hl Hc. unfold call_forward. rewrite Hl, Hc. reflexivity.
Qed.

(** After construction the new reference points to a [TransformerModel]. *)
Lemma TransformerModel_constructed (V : pyval) (D : option pyval) (h h' : heap) (r : pyval) :
  TransformerModel V D h = Ok r h' ->
  exists l, r = VRef l /\
    h' !! l = Some (mkobj TransformerModel_class (init_dict V (default (VInt 512) D))).
Proof.
  rewrite TransformerModel_run. intros Heq. inversion Heq; subst.
  eexists; split; [reflexivity |]. apply lookup_insert_eq.
Qed.

Lemma forward_all_instance (h : heap) (l : positive) (o : pyobj) (xs : list pyval) :
  h !! l = Some o -> obj_class o = TransformerModel_class ->
  forward_all (VRef l) xs h = Ok tt h.
Proof.
  intros Hl Hc. induction xs as [| x xs IH]; simpl.
  - reflexivity.
  - unfold py_bind. rewrite (call_forward_instance h l o x Hl Hc). exact IH.
Qed.

(** Two concrete heaps: one instance [TransformerModel(10)] at cell 1, and
    then a second instance [TransformerModel(32000, d_model=768)] at cell 2. *)
Definition heap_one : heap := final_heap (TransformerModel (VInt 10) None ∅).

Definition heap_two : heap :=
  final_heap (TransformerModel (VInt 32000) (Some (VInt 768)) heap_one).

(** ** Claims *)

(** C1: for every vocabulary size [V], [TransformerModel(V)] with [d_model]
    omitted yields an object whose stored [d_model] is [512] and whose
    stored [vocab_size] is [V]. *)
Theorem construct_default_d_model (V : pyval) (h : heap) :
  exists r h', TransformerModel V None h = Ok r h' /\
    getattr r "d_model" h' = Ok (VInt 512) h' /\
    getattr r "vocab_size" h' = Ok V h'.
Proof.
  rewrite TransformerModel_run.
  do 2 eexists; split; [reflexivity |].
  unfold getattr. rewrite lookup_insert_eq. simpl.
  rewrite init_dict_d_model, init_dict_vocab_size. split; reflexivity.
Qed.

(** C2: for all [V] and [D], [TransformerModel(V, d_model=D)] yields an
    object whose stored [d_model] is [D] and whose stored [vocab_size] is [V]. *)
Theorem construct_explicit_d_model (V D : pyval) (h : heap) :
  exists r h', TransformerModel V (Some D) h = Ok r h' /\
    getattr r "d_model" h' = Ok D h' /\
    getattr r "vocab_size" h' = Ok V h'.
Proof.
  rewrite TransformerModel_run.
  do 2 eexists; split; [reflexivity |].
  unfold getattr. rewrite lookup_insert_eq. simpl.
  rewrite init_dict_d_model, init_dict_vocab_size. split; reflexivity.
Qed.

(** C3: on every constructed [TransformerModel] and every input [x],
    [forward(x)] raises nothing and returns [None]. *)
Theorem forward_returns_none (V : pyval) (D : option pyval) (h h1 : heap) (r x : pyval) :
  TransformerModel V D h = Ok r h1 ->
  outcome (call_forward r x h1) = inl VNone.
Proof.
  intros Hc. destruct (TransformerModel_constructed V D h h1 r Hc) as [l [-> Hl]].
  rewrite (call_forward_instance h1 l _ x Hl eq_refl). reflexivity.
Qed.

(** C4: for all argument values, with no precondition, construction never
    raises and its only effect is one fresh instance holding the two
    stored attributes: every other heap cell is unchanged. *)
Theorem construct_total (V : pyval) (D : option pyval) (h : heap) :
  exists l, h !! l = None /\
    TransformerModel V D h =
    Ok (VRef l) (<[l := mkobj TransformerModel_class
                          (init_dict V (default (VInt 512) D))]> h).
Proof.
  exists (fresh (dom h)). split.
  - apply TransformerModel_fresh.
  - apply TransformerModel_run.
Qed.

(** C5: on every constructed object and every input, [forward(x)] leaves
    the heap, hence every stored attribute of the object ([d_model] and
    [vocab_size] included), as it was before the call. *)
Theorem forward_frame (V : pyval) (D : option pyval) (h h1 : heap) (r x : pyval) :
  TransformerModel V D h = Ok r h1 ->
  final_heap (call_forward r x h1) = h1 /\
  forall k, getattr r k (final_heap (call_forward r x h1)) = getattr r k h1.
Proof.
  intros Hc. destruct (TransformerModel_constructed V D h h1 r Hc) as [l [-> Hl]].
  rewrite (call_forward_instance h1 l _ x Hl eq_refl). simpl.
  split; [reflexivity | intros k; reflexivity].
Qed.

(** C6: after construction, any finite sequence of [forward] calls leaves
    the stored [d_model] and [vocab_size] equal to the constructor's values. *)
Theorem forward_sequence_preserves_fields (V : pyval) (D : option pyval) (h h1 : heap)
    (r : pyval) (xs : list pyval) :
  TransformerModel V D h = Ok r h1 ->
  exists h2, forward_all r xs h1 = Ok tt h2 /\
    getattr r "d_model" h2 = Ok (default (VInt 512) D) h2 /\
    getattr r "vocab_size" h2 = Ok V h2.
Proof.
  intros Hc. destruct (TransformerModel_constructed V D h h1 r Hc) as [l [-> Hl]].
  exists h1. split.
  - exact (forward_all_instance h1 l _ xs Hl eq_refl).
  - unfold getattr. rewrite Hl. simpl.
    rewrite init_dict_d_model, init_dict_vocab_size. split; reflexivity.
Qed.

(** C7: construction and [forward] are deterministic: two constructions
    with equal arguments (from any two heaps) store equal attributes, and
    [forward] on equal objects with equal inputs has equal outcomes. *)
Theorem construct_forward_deterministic (V : pyval) (D : option pyval)
    (h1 h2 h1' h2' : heap) (r1 r2 : pyval) :
  TransformerModel V D h1 = Ok r1 h1' ->
  TransformerModel V D h2 = Ok r2 h2' ->
  (forall k, outcome (getattr r1 k h1') = outcome (getattr r2 k h2')) /\
  (forall (g1 g2 : heap) (l1 l2 : positive) (x : pyval),
     g1 !! l1 = g2 !! l2 ->
     outcome (call_forward (VRef l1) x g1) = outcome (call_forward (VRef l2) x g2)).
Proof.
  intros H1 H2.
  destruct (TransformerModel_constructed V D h1 h1' r1 H1) as [l1 [-> Hl1]].
  destruct (TransformerModel_constructed V D h2 h2' r2 H2) as [l2 [-> Hl2]].
  split.
  - intros k. unfold getattr. rewrite Hl1, Hl2. simpl.
    destruct (init_dict V (default (VInt 512) D) !! k); reflexivity.
  - intros g1 g2 m1 m2 x Heq. unfold call_forward. rewrite Heq.
    destruct (g2 !! m2) as [o |]; [| reflexivity].
    destruct (String.eqb (obj_class o) TransformerModel_class); reflexivity.
Qed.

(** C8: [forward]'s outcome depends neither on the configuration nor on the
    input: on any two constructed objects and any two inputs it is the same. *)
Theorem forward_output_independent (V1 V2 : pyval) (D1 D2 : option pyval)
    (h1 h2 h1' h2' : heap) (r1 r2 x1 x2 : pyval) :
  TransformerModel V1 D1 h1 = Ok r1 h1' ->
  TransformerModel V2 D2 h2 = Ok r2 h2' ->
  outcome (call_forward r1 x1 h1') = outcome (call_forward r2 x2 h2').
Proof.
  intros H1 H2.
  destruct (TransformerModel_constructed V1 D1 h1 h1' r1 H1) as [l1 [-> Hl1]].
  destruct (TransformerModel_constructed V2 D2 h2 h2' r2 H2) as [l2 [-> Hl2]].
  rewrite (call_forward_instance h1' l1 _ x1 Hl1 eq_refl),
          (call_forward_instance h2' l2 _ x2 Hl2 eq_refl).
  reflexivity.
Qed.

(** C9: calling [forward(x)] twice in succession gives the same result and
    the same final state as calling it once, on any receiver and heap. *)
Theorem forward_idempotent (r x : pyval) (h : heap) :
  (_ <<- call_forward r x ;; call_forward r x) h = call_forward r x h.
Proof.
  unfold py_bind, call_forward.
  destruct r as [| | | | l]; try reflexivity.
  destruct (h !! l) as [o |] eqn:Hl; [| reflexivity].
  destruct (String.eqb (obj_class o) TransformerModel_class) eqn:Hc; [| reflexivity].
  unfold TransformerModel_forward, py_ret. rewrite Hl, Hc. reflexivity.
Qed.

(** ** Witnesses at concrete inputs *)

Lemma forward_returns_none_witness :
  TransformerModel (VInt 10) None ∅ = Ok (VRef 1) heap_one /\
  outcome (call_forward (VRef 1) (VStr "tokens") heap_one) = inl VNone.
Proof.
  split; [reflexivity |].
  apply (forward_returns_none (VInt 10) None ∅ heap_one (VRef 1) (VStr "tokens")).
  reflexivity.
Defined.

Lemma forward_frame_witness :
  TransformerModel (VInt 10) None ∅ = Ok (VRef 1) heap_one /\
  final_heap (call_forward (VRef 1) (VInt 7) heap_one) = heap_one /\
  (forall k, getattr (VRef 1) k (final_heap (call_forward (VRef 1) (VInt 7) heap_one))
             = getattr (VRef 1) k heap_one).
Proof.
  split; [reflexivity |].
  apply (forward_frame (VInt 10) None ∅ heap_one (VRef 1) (VInt 7)).
  reflexivity.
Defined.

Lemma forward_sequence_preserves_fields_witness :
  TransformerModel (VInt 10) None ∅ = Ok (VRef 1) heap_one /\
  exists h2, forward_all (VRef 1) [VInt 1; VStr "a"; VNone] heap_one = Ok tt h2 /\
    getattr (VRef 1) "d_model" h2 = Ok (VInt 512) h2 /\
    getattr (VRef 1) "vocab_size" h2 = Ok (VInt 10) h2.
Proof.
  split; [reflexivity |].
  apply (forward_sequence_preserves_fields (VInt 10) None ∅ heap_one (VRef 1)
           [VInt 1; VStr "a"; VNone]).
  reflexivity.
Defined.

Lemma construct_forward_deterministic_witness :
  TransformerModel (VInt 10) None ∅ = Ok (VRef 1) heap_one /\
  TransformerModel (VInt 10) None heap_one =
    Ok (VRef 2) (final_heap (TransformerModel (VInt 10) None heap_one)) /\
  (forall k, outcome (getattr (VRef 1) k heap_one) =
             outcome (getattr (VRef 2) k (final_heap (TransformerModel (VInt 10) None heap_one)))) /\
  (forall (g1 g2 : heap) (l1 l2 : positive) (x : pyval),
     g1 !! l1 = g2 !! l2 ->
     outcome (call_forward (VRef l1) x g1) = outcome (call_forward (VRef l2) x g2)).
Proof.
  split; [reflexivity |]. split; [reflexivity |].
  apply (construct_forward_deterministic (VInt 10) None ∅ heap_one heap_one
           (final_heap (TransformerModel (VInt 10) None heap_one)) (VRef 1) (VRef 2));
    reflexivity.
Defined.

Lemma forward_output_independent_witness :
  TransformerModel (VInt 10) None ∅ = Ok (VRef 1) heap_one /\
  TransformerModel (VInt 32000) (Some (VInt 768)) heap_one = Ok (VRef 2) heap_two /\
  outcome (call_forward (VRef 1) (VInt 3) heap_one) =
  outcome (call_forward (VRef 2) (VStr "other") heap_two).
Proof.
  split; [reflexivity |]. split; [reflexivity |].
  apply (forward_output_independent (VInt 10) (VInt 32000) None (Some (VInt 768))
           ∅ heap_one heap_one heap_two (VRef 1) (VRef 2) (VInt 3) (VStr "other"));
    reflexivity.
Defined.

(** ** Further properties of [__init__] and construction *)

(** [__init__] called on any existing instance (for example
    [model.__init__(V, D)] again, or [TransformerModel.__init__(obj, V, D)]
    on an instance of another class) returns [None], writes exactly
    [d_model] and then [vocab_size] into its [__dict__], keeps its class and
    its other attributes, and touches no other heap cell. *)
Theorem init_existing_instance (h : heap) (l : positive) (o : pyobj) (V D : pyval) :
  h !! l = Some o ->
  TransformerModel___init__ (VRef l) V D h =
  Ok VNone (<[l := mkobj (obj_class o)
                    (<["vocab_size" := V]> (<["d_model" := D]> (obj_dict o)))]> h).
Proof.
  intros Hl. unfold TransformerModel___init__, py_bind, py_ret, setattr.
  rewrite Hl, lookup_insert_eq. simpl. rewrite insert_insert_eq. reflexivity.
Qed.

(** Running [model.__init__(V, D)] again with the arguments the model was
    built with leaves the whole heap as it was. *)
Theorem reinit_same_args_noop (V : pyval) (D : option pyval) (h h1 : heap) (r : pyval) :
  TransformerModel V D h = Ok r h1 ->
  TransformerModel___init__ r V (default (VInt 512) D) h1 = Ok VNone h1.
Proof.
  intros Hc. destruct (TransformerModel_constructed V D h h1 r Hc) as [l [-> Hl]].
  rewrite (init_existing_instance h1 l _ V _ Hl). simpl.
  (* Rewriting both attributes with their current values yields the same
     canonical dictionary, so the cell is rewritten with what it holds. *)
  f_equal. rewrite <- (insert_id h1 l _ Hl) at 2. reflexivity.
Qed.

(** [TransformerModel.__init__(self, V, D)] with a [self] that is not an
    instance (an int, a string, [None], a bool) raises [AttributeError] at
    the first attribute store and leaves the heap unchanged. *)
Theorem init_non_instance_raises (self V D : pyval) (h : heap) :
  (forall l, self <> VRef l) ->
  TransformerModel___init__ self V D h = Raise "AttributeError" h.
Proof.
  intros Hself. unfold TransformerModel___init__, py_bind, setattr.
  destruct self; try reflexivity. exfalso. exact (Hself l eq_refl).
Qed.

(** The default [512] is used only when [d_model] is not passed: passing
    [d_model=None] explicitly stores [None]. *)
Theorem explicit_none_d_model_stored (V : pyval) (h : heap) :
  exists r h', TransformerModel V (Some VNone) h = Ok r h' /\
    getattr r "d_model" h' = Ok VNone h'.
Proof.
  rewrite TransformerModel_run. do 2 eexists; split; [reflexivity |].
  unfold getattr. rewrite lookup_insert_eq. reflexivity.
Qed.

(** Two successive constructions give two distinct objects, and the second
    one leaves the first object, with its stored fields, as it was. *)
Theorem construct_twice_distinct (V1 V2 : pyval) (D1 D2 : option pyval)
    (h h1 h2 : heap) (r1 r2 : pyval) :
  TransformerModel V1 D1 h = Ok r1 h1 ->
  TransformerModel V2 D2 h1 = Ok r2 h2 ->
  r1 <> r2 /\
  getattr r1 "d_model" h2 = Ok (default (VInt 512) D1) h2 /\
  getattr r1 "vocab_size" h2 = Ok V1 h2.
Proof.
  intros H1 H2.
  destruct (TransformerModel_constructed V1 D1 h h1 r1 H1) as [l1 [-> Hl1]].
  rewrite TransformerModel_run in H2. inversion H2; subst r2 h2.
  assert (Hne : l1 <> fresh (dom h1)).
  { intros Heq. pose proof (TransformerModel_fresh h1) as Hf.
    rewrite <- Heq, Hl1 in Hf. discriminate. }
  split; [congruence |].
  unfold getattr. rewrite lookup_insert_ne by congruence. rewrite Hl1. simpl.
  rewrite init_dict_d_model, init_dict_vocab_size. split; reflexivity.
Qed.

(** After construction the instance dictionary ([vars(model)]) has exactly
    the two keys [d_model] and [vocab_size]: the constructor stores nothing
    else on the instance. *)
Theorem construct_dict_keys (V : pyval) (D : option pyval) (h h1 : heap) (r : pyval) :
  TransformerModel V D h = Ok r h1 ->
  exists l o, r = VRef l /\ h1 !! l = Some o /\
    dom (obj_dict o) = ({["d_model"; "vocab_size"]} : gset string).
Proof.
  intros Hc. destruct (TransformerModel_constructed V D h h1 r Hc) as [l [-> Hl]].
  eexists l, _. split; [reflexivity |]. split; [exact Hl |]. simpl.
  unfold init_dict. rewrite !dom_insert_L, dom_empty_L. set_solver.
Qed.

(** ** Witnesses for the further properties *)

Lemma init_existing_instance_witness :
  heap_one !! 1%positive = Some (mkobj TransformerModel_class (init_dict (VInt 10) (VInt 512))) /\
  TransformerModel___init__ (VRef 1) (VInt 50000) (VInt 1024) heap_one =
  Ok VNone (<[1%positive := mkobj TransformerModel_class
               (<["vocab_size" := VInt 50000]> (<["d_model" := VInt 1024]>
                  (init_dict (VInt 10) (VInt 512))))]> heap_one).
Proof.
  split; [reflexivity |].
  apply (init_existing_instance heap_one 1%positive
           (mkobj TransformerModel_class (init_dict (VInt 10) (VInt 512)))
           (VInt 50000) (VInt 1024)).
  reflexivity.
Defined.

Lemma reinit_same_args_noop_witness :
  TransformerModel (VInt 10) None ∅ = Ok (VRef 1) heap_one /\
  TransformerModel___init__ (VRef 1) (VInt 10) (VInt 512) heap_one = Ok VNone heap_one.
Proof.
  split; [reflexivity |].
  apply (reinit_same_args_noop (VInt 10) None ∅ heap_one (VRef 1)).
  reflexivity.
Defined.

Lemma init_non_instance_raises_witness :
  (forall l, VInt 5 <> VRef l) /\
  TransformerModel___init__ (VInt 5) (VInt 10) (VInt 512) heap_one =
  Raise "AttributeError" heap_one.
Proof.
  split; [intros l; discriminate |].
  apply (init_non_instance_raises (VInt 5) (VInt 10) (VInt 512) heap_one).
  intros l; discriminate.
Defined.

Lemma construct_twice_distinct_witness :
  TransformerModel (VInt 10) None ∅ = Ok (VRef 1) heap_one /\
  TransformerModel (VInt 32000) (Some (VInt 768)) heap_one = Ok (VRef 2) heap_two /\
  VRef 1 <> VRef 2 /\
  getattr (VRef 1) "d_model" heap_two = Ok (VInt 512) heap_two /\
  getattr (VRef 1) "vocab_size" heap_two = Ok (VInt 10) heap_two.
Proof.
  split; [reflexivity |]. split; [reflexivity |].
  apply (construct_twice_distinct (VInt 10) (VInt 32000) None (Some (VInt 768))
           ∅ heap_one heap_two (VRef 1) (VRef 2)); reflexivity.
Defined.

Lemma construct_dict_keys_witness :
  TransformerModel (VInt 32000) (Some (VInt 768)) heap_one = Ok (VRef 2) heap_two /\
  exists l o, VRef 2 = VRef l /\ heap_two !! l = Some o /\
    dom (obj_dict o) = ({["d_model"; "vocab_size"]} : gset string).
Proof.
  split; [reflexivity |].
  apply (construct_dict_keys (VInt 32000) (Some (VInt 768)) heap_one heap_two (VRef 2)).
  reflexivity.
Defined.
